(** * SysLogHandler: a shallow embedding of [syslog_handler.py]

    The handler formats a log record as a priority-tagged syslog message
    and hands it to a connect/send/close socket.  Python values are
    modelled by a small sum type, exceptions by an error result, the three
    class-level dictionaries by finite maps, and the socket and the console
    by an explicit world that [emit] threads through. *)

From Stdlib Require Import ZArith Lia Ascii String List.
From Stdlib Require Import Numbers.DecimalString.
From Stdlib Require Import Strings.Byte.
From stdpp Require Import base option gmap strings.

Local Open Scope Z_scope.
Local Open Scope string_scope.

(** ** Python values and exceptions *)

(** The scalar values the handler is handed as a level, a facility or a
    priority: [None], an [int] (unbounded, hence [Z]) or a [str].  A [str]
    is kept as the sequence of its UTF-8 bytes, which is how CircuitPython
    stores it. *)
Inductive pyval : Type :=
  | PyNone
  | PyInt (n : Z)
  | PyStr (s : string).

(** The built-in exception classes that matter here, with their parents. *)
Inductive exc_type : Type :=
  | BaseException
  | Exception
  | LookupError
  | KeyError
  | IndexError
  | TypeError
  | ValueError
  | AttributeError
  | RuntimeError
  | NotImplementedError
  | OSError
  | TimeoutError
  | ConnectionError
  | MemoryError.

Definition exc_base (c : exc_type) : option exc_type :=
  match c with
  | BaseException => None
  | Exception => Some BaseException
  | LookupError => Some Exception
  | KeyError => Some LookupError
  | IndexError => Some LookupError
  | TypeError => Some Exception
  | ValueError => Some Exception
  | AttributeError => Some Exception
  | RuntimeError => Some Exception
  | NotImplementedError => Some RuntimeError
  | OSError => Some Exception
  | TimeoutError => Some OSError
  | ConnectionError => Some OSError
  | MemoryError => Some Exception
  end.

Definition exc_type_eqb (c d : exc_type) : bool :=
  match c, d with
  | BaseException, BaseException | Exception, Exception
  | LookupError, LookupError | KeyError, KeyError
  | IndexError, IndexError | TypeError, TypeError
  | ValueError, ValueError | AttributeError, AttributeError
  | RuntimeError, RuntimeError | NotImplementedError, NotImplementedError
  | OSError, OSError | TimeoutError, TimeoutError
  | ConnectionError, ConnectionError | MemoryError, MemoryError => true
  | _, _ => false
  end.

(** [issubclass c d]: walk the chain of parents of [c]; the hierarchy above
    is at most four classes deep. *)
Fixpoint issubclass_fuel (fuel : nat) (c d : exc_type) : bool :=
  if exc_type_eqb c d then true
  else match fuel with
       | O => false
       | S fuel' =>
           match exc_base c with
           | Some p => issubclass_fuel fuel' p d
           | None => false
           end
       end.

Definition issubclass (c d : exc_type) : bool := issubclass_fuel 4 c d.

(** An exception instance: its class and its argument. *)
Record exn : Type := Exn { exc_class : exc_type; exc_arg : string }.

Definition isinstance (e : exn) (c : exc_type) : bool :=
  issubclass (exc_class e) c.

(** The outcome of a Python call: a value, or a raised exception. *)
Inductive result (A : Type) : Type :=
  | Ok (a : A)
  | Raise (e : exn).
Arguments Ok {A} a.
Arguments Raise {A} e.

#[global] Instance result_ret : MRet result := λ A a, Ok a.
#[global] Instance result_bind : MBind result :=
  λ A B k r, match r with Ok a => k a | Raise e => Raise e end.

(** ** Strings, bytes and numbers *)

(** [str.lower()]: the letters A-Z are mapped to a-z, every other byte is
    kept. *)
Definition ascii_lower (c : ascii) : ascii :=
  let n := N_of_ascii c in
  if ((65 <=? n) && (n <=? 90))%N then ascii_of_N (n + 32) else c.

Fixpoint str_lower (s : string) : string :=
  match s with
  | EmptyString => EmptyString
  | String c s' => String (ascii_lower c) (str_lower s')
  end.

(** ['%d' % n]: the decimal digits of [n], with a leading minus sign when
    it is negative. *)
Definition percent_d (n : Z) : string := NilZero.string_of_int (Z.to_int n).

(** [s.encode('utf-8')]: the bytes of the string. *)
Definition bytes : Type := list byte.
Definition encode_utf8 (s : string) : bytes := list_byte_of_string s.

(** Truth value of a [str]: false exactly for the empty string. *)
Definition str_truthy (s : string) : bool :=
  match s with EmptyString => false | String _ _ => true end.

(** ['\000'] *)
Definition NUL : string := String Ascii.zero EmptyString.

(** ** The socket layer and the console *)

Inductive sock_type : Type := SOCK_STREAM | SOCK_DGRAM.
Inductive conn_mode : Type := TCP_MODE | UDP_MODE.

(** A socket address as [getaddrinfo] returns it: (ip, port). *)
Definition sockaddr : Type := (string * Z)%type.

(** One entry of the list [getaddrinfo] returns, a 5-tuple; the handler
    reads its component 4. *)
Definition addrinfo : Type := (Z * sock_type * Z * string * sockaddr)%type.
Definition addrinfo_4 (ai : addrinfo) : sockaddr := snd ai.

(** The calls the handler makes on its socket object. *)
Inductive sock_call : Type :=
  | SockClose
  | SockConnect (addr : sockaddr) (conntype : conn_mode)
  | SockSend (data : bytes).

(** The logical connection of the socket. *)
Inductive conn_state : Type := Idle | Connected.

(** Modelled from the spec: the socket object belongs to the
    adafruit_esp32spi library, which is not part of the sources; its
    transport state machine has the two states Idle and Connected, a
    successful close leaves it Idle, a successful connect leaves it
    Connected and a send does not change it. *)
Definition conn_after (c : sock_call) (st : conn_state) : conn_state :=
  match c with
  | SockClose => Idle
  | SockConnect _ _ => Connected
  | SockSend _ => st
  end.

(** What reaches the console: a printed line, or the traceback of an
    exception written by [traceback.print_exception]. *)
Inductive console_event : Type :=
  | Print (line : string)
  | PrintException (e : exn).

(** The world [emit] runs in: the connection state of the handler's socket,
    the calls made on the socket so far and the console output so far. *)
Record world : Type := World {
  conn : conn_state;
  sock_log : list sock_call;
  console : list console_event
}.

(** The collaborators of the handler, none of which is part of the sources:
    the resolver, the base class formatter [LoggingHandler.format], the
    socket layer, which for a call made in a given connection state either
    succeeds ([None]) or raises, and [traceback.print_exception] as the
    handler calls it, with the keywords [etype], [value] and [tb]: it
    writes the traceback ([None]) where the function has parameters of
    these names, and raises where it has not. *)
Record collaborators : Type := Collaborators {
  getaddrinfo : string → Z → result (list addrinfo);
  base_format : pyval → string → result string;
  sock_outcome : conn_state → sock_call → option exn;
  traceback_outcome : exn → option exn
}.

(** [traceback.print_exception(etype, value, tb, ...)], the signature of
    CPython up to 3.9: the keyword call is accepted. *)
Definition traceback_named : exn → option exn := λ _, None.

(** [traceback.print_exception(exc, /, value, tb, ...)], the signature of
    CPython 3.10 and later: there is no parameter [etype] to pass by
    keyword, and the call raises a [TypeError]. *)
Definition traceback_positional_only : exn → option exn :=
  λ _, Some (Exn TypeError
               "print_exception() got an unexpected keyword argument 'etype'").

(** ** Stateful computations that may raise *)

Definition M (A : Type) : Type := world → result A * world.

#[global] Instance M_ret : MRet M := λ A a w, (Ok a, w).
#[global] Instance M_bind : MBind M :=
  λ A B k m w,
    match m w with
    | (Ok a, w') => k a w'
    | (Raise e, w') => (Raise e, w')
    end.

Definition lift {A : Type} (r : result A) : M A := λ w, (r, w).

(** [try: body except cls as e: handler e] *)
Definition try_except (body : M unit) (cls : exc_type) (handler : exn → M unit) : M unit :=
  λ w,
    match body w with
    | (Ok a, w') => (Ok a, w')
    | (Raise e, w') =>
        if isinstance e cls then handler e w' else (Raise e, w')
    end.

Definition print (line : string) : M unit :=
  λ w, (Ok tt, World (conn w) (sock_log w) (console w ++ [Print line])).

(** [traceback.print_exception(etype=type(e), value=e, tb=e.__traceback__)] *)
Definition print_exception (E : collaborators) (e : exn) : M unit :=
  λ w,
    match traceback_outcome E e with
    | Some e' => (Raise e', w)
    | None =>
        (Ok tt, World (conn w) (sock_log w) (console w ++ [PrintException e]))
    end.

(** A call on the socket: it is logged, and it either raises, leaving the
    connection state as it was, or succeeds and moves the state. *)
Definition sock_do (E : collaborators) (c : sock_call) : M unit :=
  λ w,
    match sock_outcome E (conn w) c with
    | Some e => (Raise e, World (conn w) (sock_log w ++ [c]) (console w))
    | None => (Ok tt, World (conn_after c (conn w)) (sock_log w ++ [c]) (console w))
    end.

(** ** Class constants *)

Definition SYSLOG_UDP_PORT : Z := 514.
Definition SYSLOG_TCP_PORT : Z := 514.

Module SysLogHandler.

Definition LOG_EMERG : Z := 0.
Definition LOG_ALERT : Z := 1.
Definition LOG_CRIT : Z := 2.
Definition LOG_ERR : Z := 3.
Definition LOG_WARNING : Z := 4.
Definition LOG_NOTICE : Z := 5.
Definition LOG_INFO : Z := 6.
Definition LOG_DEBUG : Z := 7.

Definition LOG_KERN : Z := 0.
Definition LOG_USER : Z := 1.
Definition LOG_MAIL : Z := 2.
Definition LOG_DAEMON : Z := 3.
Definition LOG_AUTH : Z := 4.
Definition LOG_SYSLOG : Z := 5.
Definition LOG_LPR : Z := 6.
Definition LOG_NEWS : Z := 7.
Definition LOG_UUCP : Z := 8.
Definition LOG_CRON : Z := 9.
Definition LOG_AUTHPRIV : Z := 10.
Definition LOG_FTP : Z := 11.
Definition LOG_LOCAL0 : Z := 16.
Definition LOG_LOCAL1 : Z := 17.
Definition LOG_LOCAL2 : Z := 18.
Definition LOG_LOCAL3 : Z := 19.
Definition LOG_LOCAL4 : Z := 20.
Definition LOG_LOCAL5 : Z := 21.
Definition LOG_LOCAL6 : Z := 22.
Definition LOG_LOCAL7 : Z := 23.

Definition priority_names : gmap string Z :=
  list_to_map
    [ ("alert", LOG_ALERT);
      ("crit", LOG_CRIT);
      ("critical", LOG_CRIT);
      ("debug", LOG_DEBUG);
      ("emerg", LOG_EMERG);
      ("err", LOG_ERR);
      ("error", LOG_ERR);
      ("info", LOG_INFO);
      ("notice", LOG_NOTICE);
      ("panic", LOG_EMERG);
      ("warn", LOG_WARNING);
      ("warning", LOG_WARNING) ].

Definition facility_names : gmap string Z :=
  list_to_map
    [ ("auth", LOG_AUTH);
      ("authpriv", LOG_AUTHPRIV);
      ("cron", LOG_CRON);
      ("daemon", LOG_DAEMON);
      ("ftp", LOG_FTP);
      ("kern", LOG_KERN);
      ("lpr", LOG_LPR);
      ("mail", LOG_MAIL);
      ("news", LOG_NEWS);
      ("security", LOG_AUTH);
      ("syslog", LOG_SYSLOG);
      ("user", LOG_USER);
      ("uucp", LOG_UUCP);
      ("local0", LOG_LOCAL0);
      ("local1", LOG_LOCAL1);
      ("local2", LOG_LOCAL2);
      ("local3", LOG_LOCAL3);
      ("local4", LOG_LOCAL4);
      ("local5", LOG_LOCAL5);
      ("local6", LOG_LOCAL6);
      ("local7", LOG_LOCAL7) ].

Definition priority_map : gmap string string :=
  list_to_map
    [ ("DEBUG", "debug");
      ("INFO", "info");
      ("WARNING", "warning");
      ("ERROR", "error");
      ("CRITICAL", "critical") ].

(** ** Dictionary access *)

(** [d.get(key, default)] on a dictionary whose keys are all strings: a
    key that is not a [str] compares unequal to every key.  Every [pyval]
    is hashable, so the lookup itself cannot raise. *)
Definition dict_get {V : Type} (d : gmap string V) (key : pyval) (default : V) : V :=
  match key with
  | PyStr k => match d !! k with Some v => v | None => default end
  | _ => default
  end.

(** [d[key]] for a [str] key: [KeyError(key)] when the key is missing. *)
Definition dict_getitem {V : Type} (d : gmap string V) (k : string) : result V :=
  match d !! k with
  | Some v => Ok v
  | None => Raise (Exn KeyError k)
  end.

(** ** mapPriority and encodePriority *)

Definition mapPriority (levelName : pyval) : string :=
  dict_get priority_map levelName "warning".

(** Any object a caller can pass as an argument: one of the scalars above,
    which are hashable, or a list, which is not. *)
Inductive pyobj : Type :=
  | PyScalar (v : pyval)
  | PyList (items : list pyval).

(** [d.get(key, default)] for any object as the key: the key is hashed
    before it is looked up, and hashing a list raises a [TypeError]. *)
Definition dict_get_object {V : Type} (d : gmap string V) (key : pyobj)
    (default : V) : result V :=
  match key with
  | PyScalar v => Ok (dict_get d v default)
  | PyList _ => Raise (Exn TypeError "unhashable type: 'list'")
  end.

(** [mapPriority] on any argument; on the scalars, which is what a level
    is, it returns what [mapPriority] above returns. *)
Definition mapPriority_object (levelName : pyobj) : result string :=
  dict_get_object priority_map levelName "warning".

(** [facility << 3] and [_ | priority] on Python operands: defined on
    integers, [TypeError] on [None]; a [str] never reaches them. *)
Definition py_lshift (a : pyval) (k : Z) : result Z :=
  match a with
  | PyInt n => Ok (Z.shiftl n k)
  | _ => Raise (Exn TypeError "unsupported operand type(s) for <<")
  end.

Definition py_or (a : Z) (b : pyval) : result Z :=
  match b with
  | PyInt n => Ok (Z.lor a n)
  | _ => Raise (Exn TypeError "unsupported operand type(s) for |")
  end.

(** [isinstance(v, str)] then [names[v]], else [v] unchanged. *)
Definition resolve_keyword (names : gmap string Z) (v : pyval) : result pyval :=
  match v with
  | PyStr s => n ← dict_getitem names s; mret (PyInt n)
  | _ => mret v
  end.

Definition encodePriority (facility priority : pyval) : result Z :=
  facility ← resolve_keyword facility_names facility;
  priority ← resolve_keyword priority_names priority;
  shifted ← py_lshift facility 3;
  py_or shifted priority.

(** ** The handler object *)

(** The instance attributes [__init__] sets, and the two class attributes
    [ident] and [append_nul], which a caller may override on the instance.
    The socket object itself lives in the [world]. *)
Record handler : Type := Handler {
  address : string;
  port : Z;
  facility : pyval;
  _socktype : sock_type;
  _conntype : conn_mode;
  _socketaddr_out : sockaddr;
  formatter : pyval;
  ident : string;
  append_nul : bool
}.

(** [l[0]]: [IndexError] on the empty list. *)
Definition list_head {A : Type} (l : list A) : result A :=
  match l with
  | a :: _ => Ok a
  | [] => Raise (Exn IndexError "list index out of range")
  end.

(** [__init__(self, address, port=SYSLOG_UDP_PORT, facility=LOG_USER,
    protocol=None)]: an argument left out is [None] here; [protocol] is
    [None] or a [str]. *)
Definition __init__ (E : collaborators) (address : string) (port : option Z)
    (facility : option pyval) (protocol : option string) : result handler :=
  let port := default SYSLOG_UDP_PORT port in
  let facility := default (PyInt LOG_USER) facility in
  let '(socktype, conntype) :=
    match protocol with
    | None => (SOCK_DGRAM, UDP_MODE)
    | Some protocol =>
        if String.eqb (str_lower protocol) "tcp" then (SOCK_STREAM, TCP_MODE)
        else (SOCK_DGRAM, UDP_MODE)
    end in
  infos ← getaddrinfo E address port;
  info ← list_head infos;
  mret (Handler address port facility socktype conntype (addrinfo_4 info)
          PyNone "" true).

(** The world right after construction: a fresh socket, nothing sent,
    nothing printed. *)
Definition fresh_world : world := World Idle [] [].

Definition _close (E : collaborators) (self : handler) : M unit :=
  sock_do E SockClose.

Definition _connect (E : collaborators) (self : handler) : M unit :=
  sock_do E (SockConnect (_socketaddr_out self) (_conntype self)).

Definition format (E : collaborators) (self : handler) (log_level : pyval)
    (message : string) : M string :=
  lift (base_format E log_level message).

Definition emit (E : collaborators) (self : handler) (log_level : pyval)
    (message : string) : M unit :=
  print ("Received message: " +:+ message);;
  msg ← format E self log_level message;
  print ("Formatted message: " +:+ msg);;
  let msg := if str_truthy (ident self) then ident self +:+ msg else msg in
  let msg := if append_nul self then msg +:+ NUL else msg in
  prio ← lift (encodePriority (facility self) (PyStr (mapPriority log_level)));
  let prio := "<" +:+ percent_d prio +:+ ">" in
  let prio := encode_utf8 prio in
  let msg := encode_utf8 msg in
  let msg := (prio ++ msg)%list in
  try_except
    (_close E self;;
     _connect E self;;
     sock_do E (SockSend msg))
    RuntimeError
    (λ e,
      print "--- LOGGING ERROR ---";;
      print ("With message: " +:+ message);;
      print_exception E e).

End SysLogHandler.

Import SysLogHandler.

(** ** Concrete collaborators and handlers, used to run the model *)

(** A resolver that returns the host name itself as the address, the
    identity formatter, a socket layer on which every call succeeds, and
    the [traceback] module of CPython 3.10 and later. *)
Definition example_collaborators : collaborators :=
  Collaborators
    (λ host p, Ok [(2, SOCK_DGRAM, 0, "", (host, p))])
    (λ _ message, Ok message)
    (λ _ _, None)
    traceback_positional_only.

(** The same, with a socket layer whose [connect] raises [cls]. *)
Definition failing_connect (cls : exc_type) : collaborators :=
  Collaborators
    (λ host p, Ok [(2, SOCK_DGRAM, 0, "", (host, p))])
    (λ _ message, Ok message)
    (λ _ c,
       match c with
       | SockConnect _ _ => Some (Exn cls "Failed to connect")
       | _ => None
       end)
    traceback_positional_only.

(** The same again, with the [traceback] module of CPython up to 3.9. *)
Definition failing_connect_named (cls : exc_type) : collaborators :=
  Collaborators
    (λ host p, Ok [(2, SOCK_DGRAM, 0, "", (host, p))])
    (λ _ message, Ok message)
    (λ _ c,
       match c with
       | SockConnect _ _ => Some (Exn cls "Failed to connect")
       | _ => None
       end)
    traceback_named.

Definition example_handler : handler :=
  Handler "logs.example" 514 (PyInt LOG_USER) SOCK_DGRAM UDP_MODE
    ("logs.example", 514) PyNone "host1 " true.

(** ** The pieces of [emit], named for the statements below *)

(** The bytes [emit] builds for a formatted message and a priority value:
    the header, then the message with [ident] in front when [ident] is not
    empty and a NUL behind when [append_nul] is set. *)
Definition payload (self : handler) (formatted : string) (prio : Z) : bytes :=
  let msg := if str_truthy (ident self) then ident self +:+ formatted else formatted in
  let msg := if append_nul self then msg +:+ NUL else msg in
  (encode_utf8 ("<" +:+ percent_d prio +:+ ">") ++ encode_utf8 msg)%list.

(** The [connect] call of a handler. *)
Definition connect_call (self : handler) : sock_call :=
  SockConnect (_socketaddr_out self) (_conntype self).

(** The two lines every [emit] prints first. *)
Definition trace_lines (message formatted : string) : list console_event :=
  [Print ("Received message: " +:+ message);
   Print ("Formatted message: " +:+ formatted)].

(** The two lines the [except] branch prints before it asks for the
    traceback. *)
Definition report_lines (message : string) : list console_event :=
  [Print "--- LOGGING ERROR ---";
   Print ("With message: " +:+ message)].

(** What the [except] branch writes when the traceback call is accepted:
    one report of the failure. *)
Definition failure_report (message : string) (e : exn) : list console_event :=
  [Print "--- LOGGING ERROR ---";
   Print ("With message: " +:+ message);
   PrintException e].

(** The connection states a socket goes through under a list of successful
    calls, starting from [st]. *)
Fixpoint conn_states (st : conn_state) (calls : list sock_call) : list conn_state :=
  match calls with
  | [] => []
  | c :: calls' => conn_after c st :: conn_states (conn_after c st) calls'
  end.

(** The spellings of "tcp" that differ only in the case of their letters. *)
Definition tcp_spellings : list string :=
  ["tcp"; "tcP"; "tCp"; "tCP"; "Tcp"; "TcP"; "TCp"; "TCP"].

(** Collaborators whose formatter raises [e], on a socket layer on which
    every call succeeds. *)
Definition failing_format (e : exn) : collaborators :=
  Collaborators
    (λ host p, Ok [(2, SOCK_DGRAM, 0, "", (host, p))])
    (λ _ _, Raise e)
    (λ _ _, None)
    traceback_positional_only.

(** Collaborators whose resolver answers [answer] for every host. *)
Definition fixed_resolver (answer : result (list addrinfo)) : collaborators :=
  Collaborators (λ _ _, answer) (λ _ message, Ok message) (λ _ _, None)
    traceback_positional_only.

(** A handler configured with a facility keyword that is in no table. *)
Definition misconfigured_handler : handler :=
  Handler "logs.example" 514 (PyStr "local8") SOCK_DGRAM UDP_MODE
    ("logs.example", 514) PyNone "" true.

(** The keywords [mapPriority] can return, and the severities they have in
    [priority_names]. *)
Definition mapped_keywords : list string :=
  ["debug"; "info"; "warning"; "error"; "critical"].

Definition mapped_severities : list Z :=
  [LOG_DEBUG; LOG_INFO; LOG_WARNING; LOG_ERR; LOG_CRIT].

(** * Properties *)

(** ** Priority encoding *)

Lemma shiftl3_lor_add (f s : Z) :
  0 <= s < 8 → Z.lor (Z.shiftl f 3) s = f * 8 + s.
Proof.
  intros Hs.
  assert (Hdisj : Z.land (Z.shiftl f 3) s = 0).
  { apply Z.bits_inj'. intros n Hn.
    rewrite Z.land_spec, Z.bits_0.
    destruct (Z.ltb_spec n 3) as [Hlt | Hge].
    - rewrite Z.shiftl_spec_low by lia. reflexivity.
    - assert (Hbit : Z.testbit s n = false).
      { destruct (Z.eq_dec s 0) as [-> | Hnz]; [apply Z.bits_0 |].
        apply Z.bits_above_log2; [lia |].
        assert (Z.log2 s < 3) by (apply Z.log2_lt_pow2; lia).
        lia. }
      rewrite Hbit. apply andb_false_r. }
  rewrite <- Z.lxor_lor by exact Hdisj.
  rewrite <- Z.add_nocarry_lxor by exact Hdisj.
  rewrite Z.shiftl_mul_pow2 by lia.
  reflexivity.
Qed.

Lemma priority_decompose (f s : Z) :
  0 <= s < 8 → Z.shiftr (f * 8 + s) 3 = f ∧ Z.land (f * 8 + s) 7 = s.
Proof.
  intros Hs. split.
  - rewrite Z.shiftr_div_pow2 by lia.
    symmetry. apply (Z.div_unique _ _ f s); [left | ]; lia.
  - change 7 with (Z.ones 3). rewrite Z.land_ones by lia.
    symmetry. apply (Z.mod_unique _ _ f s); [left | ]; lia.
Qed.

Lemma encodePriority_ints (f s : Z) :
  encodePriority (PyInt f) (PyInt s) = Ok (Z.lor (Z.shiftl f 3) s).
Proof. reflexivity. Qed.

(** C2: for a facility in 0..23 and a severity in 0..7, [encodePriority]
    returns [facility * 8 + severity], and whatever value it returns
    decomposes as [(value >> 3, value & 7)] into the facility and the
    severity it was given. *)
Theorem encodePriority_roundtrip (f s : Z) :
  0 <= f <= 23 → 0 <= s <= 7 →
  encodePriority (PyInt f) (PyInt s) = Ok (f * 8 + s) ∧
  ∀ value, encodePriority (PyInt f) (PyInt s) = Ok value →
    (Z.shiftr value 3, Z.land value 7) = (f, s).
Proof.
  intros _ Hs.
  rewrite encodePriority_ints, shiftl3_lor_add by lia.
  split; [reflexivity |].
  intros value Hv. injection Hv as <-.
  destruct (priority_decompose f s) as [-> ->]; [lia | reflexivity].
Qed.

Lemma encodePriority_roundtrip_witness :
  encodePriority (PyInt 23) (PyInt 7) = Ok 191 ∧
  (Z.shiftr 191 3, Z.land 191 7) = (23, 7).
Proof.
  destruct (encodePriority_roundtrip 23 7) as [H1 H2]; [lia | lia |].
  split; [exact H1 | apply H2; reflexivity].
Defined.

(** ** Keywords *)

Lemma resolve_keyword_known (names : gmap string Z) (k : string) (n : Z) :
  names !! k = Some n → resolve_keyword names (PyStr k) = Ok (PyInt n).
Proof. intros Hk. unfold resolve_keyword, dict_getitem. rewrite Hk. reflexivity. Qed.

Lemma resolve_keyword_unknown (names : gmap string Z) (k : string) :
  names !! k = None → resolve_keyword names (PyStr k) = Raise (Exn KeyError k).
Proof. intros Hk. unfold resolve_keyword, dict_getitem. rewrite Hk. reflexivity. Qed.

(** Resolution either yields a value that is not a [str], or fails with a
    [KeyError]. *)
Lemma resolve_keyword_cases (names : gmap string Z) (v : pyval) :
  (∃ v', resolve_keyword names v = Ok v') ∨
  (∃ k, v = PyStr k ∧ names !! k = None ∧
        resolve_keyword names v = Raise (Exn KeyError k)).
Proof.
  destruct v as [ | n | k].
  - left. eexists. reflexivity.
  - left. eexists. reflexivity.
  - destruct (names !! k) as [n | ] eqn:Hk.
    + left. exists (PyInt n). apply resolve_keyword_known, Hk.
    + right. exists k. split; [reflexivity |]. split; [exact Hk |].
      apply resolve_keyword_unknown, Hk.
Qed.

(** C8: a keyword string that is not a key of its map makes
    [encodePriority] raise a [KeyError], which is a [LookupError]; no
    default is substituted, whatever the other argument is.  An unknown
    facility keyword raises the [KeyError] of that very keyword. *)
Theorem encodePriority_unknown_keyword (facility priority : pyval) :
  (∃ k, facility = PyStr k ∧ facility_names !! k = None) ∨
  (∃ k, priority = PyStr k ∧ priority_names !! k = None) →
  (∃ k, encodePriority facility priority = Raise (Exn KeyError k) ∧
        isinstance (Exn KeyError k) LookupError = true) ∧
  (∀ k, facility = PyStr k → facility_names !! k = None →
        encodePriority facility priority = Raise (Exn KeyError k)).
Proof.
  intros Hbad. split.
  - destruct Hbad as [(k & -> & Hk) | (k & -> & Hk)].
    + exists k. unfold encodePriority.
      rewrite (resolve_keyword_unknown _ _ Hk). split; reflexivity.
    + unfold encodePriority.
      destruct (resolve_keyword_cases facility_names facility)
        as [(v' & Hv) | (k' & _ & _ & Hv)]; rewrite Hv.
      * exists k. cbn [mbind result_bind].
        rewrite (resolve_keyword_unknown _ _ Hk). split; reflexivity.
      * exists k'. split; reflexivity.
  - intros k -> Hk. unfold encodePriority.
    rewrite (resolve_keyword_unknown _ _ Hk). reflexivity.
Qed.

Lemma encodePriority_unknown_keyword_witness :
  encodePriority (PyStr "bogus_keyword") (PyStr "info")
  = Raise (Exn KeyError "bogus_keyword").
Proof.
  apply (encodePriority_unknown_keyword (PyStr "bogus_keyword") (PyStr "info")).
  - left. exists "bogus_keyword". split; reflexivity.
  - reflexivity.
  - reflexivity.
Defined.

(** C9: [encodePriority] takes keywords and integers interchangeably: a
    keyword is replaced by the code its map gives it before the two codes
    are combined, so a keyword and its code give the same result in either
    position; ["user"], ["info"] and 1, 6 both give 14. *)
Theorem encodePriority_keywords_and_integers :
  encodePriority (PyStr "user") (PyStr "info") = Ok 14 ∧
  encodePriority (PyInt 1) (PyInt 6) = Ok 14 ∧
  ∀ (fk pk : string) (f p : Z),
    facility_names !! fk = Some f → priority_names !! pk = Some p →
    encodePriority (PyStr fk) (PyStr pk) = encodePriority (PyInt f) (PyInt p) ∧
    encodePriority (PyStr fk) (PyInt p) = encodePriority (PyInt f) (PyInt p) ∧
    encodePriority (PyInt f) (PyStr pk) = encodePriority (PyInt f) (PyInt p).
Proof.
  split; [reflexivity |]. split; [reflexivity |].
  intros fk pk f p Hf Hp. unfold encodePriority.
  rewrite (resolve_keyword_known _ _ _ Hf), (resolve_keyword_known _ _ _ Hp).
  repeat split; reflexivity.
Qed.

Lemma encodePriority_keywords_and_integers_witness :
  encodePriority (PyStr "local7") (PyStr "debug")
  = encodePriority (PyInt 23) (PyInt 7).
Proof.
  destruct encodePriority_keywords_and_integers as (_ & _ & H).
  apply (H "local7" "debug" 23 7); reflexivity.
Defined.

(** ** Running [emit] *)

(** Up to the [try] statement: two lines are printed and the payload is
    built. *)
Lemma emit_prologue E self level message w formatted prio :
  base_format E level message = Ok formatted →
  encodePriority (facility self) (PyStr (mapPriority level)) = Ok prio →
  emit E self level message w =
  try_except
    (_close E self;; _connect E self;; sock_do E (SockSend (payload self formatted prio)))
    RuntimeError
    (λ e, print "--- LOGGING ERROR ---";;
          print ("With message: " +:+ message);;
          print_exception E e)
    (World (conn w) (sock_log w) (console w ++ trace_lines message formatted)).
Proof.
  intros Hfmt Hprio.
  cbv beta iota delta [emit format lift print mbind M_bind conn sock_log console].
  rewrite Hfmt.
  cbv beta iota.
  rewrite Hprio.
  cbv beta iota.
  rewrite <- app_assoc. reflexivity.
Qed.

(** One step of a run: use the known outcome [H] of the next call, then
    reduce the binds and the record projections it exposes. *)
Ltac run_step H :=
  cbv beta iota delta [mbind M_bind sock_do _close _connect];
  rewrite H;
  cbv beta iota; cbn [conn sock_log console conn_after].

(** The three socket calls of the [try] body, case by case. *)
Section Transport.
Variable E : collaborators.
Variable self : handler.
Variable data : bytes.
Variable w : world.

Local Abbreviation body :=
  (_close E self;; _connect E self;; sock_do E (SockSend data)).

Lemma transport_close_fails e :
  sock_outcome E (conn w) SockClose = Some e →
  body w = (Raise e, World (conn w) (sock_log w ++ [SockClose]) (console w)).
Proof.
  intros Hclose.
  run_step Hclose. reflexivity.
Qed.

Lemma transport_connect_fails e :
  sock_outcome E (conn w) SockClose = None →
  sock_outcome E Idle (connect_call self) = Some e →
  body w =
  (Raise e, World Idle (sock_log w ++ [SockClose; connect_call self]) (console w)).
Proof.
  intros Hclose Hconnect. unfold connect_call in *.
  run_step Hclose. run_step Hconnect.
  rewrite <- app_assoc. reflexivity.
Qed.

Lemma transport_send_fails e :
  sock_outcome E (conn w) SockClose = None →
  sock_outcome E Idle (connect_call self) = None →
  sock_outcome E Connected (SockSend data) = Some e →
  body w =
  (Raise e,
   World Connected (sock_log w ++ [SockClose; connect_call self; SockSend data])
     (console w)).
Proof.
  intros Hclose Hconnect Hsend. unfold connect_call in *.
  run_step Hclose. run_step Hconnect. run_step Hsend.
  rewrite <- !app_assoc. reflexivity.
Qed.

Lemma transport_succeeds :
  sock_outcome E (conn w) SockClose = None →
  sock_outcome E Idle (connect_call self) = None →
  sock_outcome E Connected (SockSend data) = None →
  body w =
  (Ok tt,
   World Connected (sock_log w ++ [SockClose; connect_call self; SockSend data])
     (console w)).
Proof.
  intros Hclose Hconnect Hsend. unfold connect_call in *.
  run_step Hclose. run_step Hconnect. run_step Hsend.
  rewrite <- !app_assoc. reflexivity.
Qed.
End Transport.

(** The [except RuntimeError] clause applied to a body that raised: an
    instance of [RuntimeError] is caught, the two report lines are printed,
    and the traceback call decides how the handler ends. *)
Lemma try_except_raised E body message w e w' :
  body w = (Raise e, w') →
  try_except body RuntimeError
    (λ e, print "--- LOGGING ERROR ---";;
          print ("With message: " +:+ message);;
          print_exception E e) w =
  if isinstance e RuntimeError
  then match traceback_outcome E e with
       | None =>
           (Ok tt,
            World (conn w') (sock_log w')
              (console w' ++ failure_report message e))
       | Some e' =>
           (Raise e',
            World (conn w') (sock_log w') (console w' ++ report_lines message))
       end
  else (Raise e, w').
Proof.
  intros Hbody. unfold try_except. rewrite Hbody.
  destruct (isinstance e RuntimeError); [| reflexivity].
  cbv beta iota delta [print print_exception mbind M_bind].
  cbn [conn sock_log console].
  destruct (traceback_outcome E e) as [e' | ];
    unfold failure_report, report_lines; rewrite <- !app_assoc; reflexivity.
Qed.

Lemma try_except_returned body cls handler w w' :
  body w = (Ok tt, w') → try_except body cls handler w = (Ok tt, w').
Proof. intros Hbody. unfold try_except. rewrite Hbody. reflexivity. Qed.

(** Whichever call raises first, the body of the [try] raises that
    exception and has printed nothing. *)
Lemma transport_raises E self data w e :
  sock_outcome E (conn w) SockClose = Some e ∨
  (sock_outcome E (conn w) SockClose = None ∧
   sock_outcome E Idle (connect_call self) = Some e) ∨
  (sock_outcome E (conn w) SockClose = None ∧
   sock_outcome E Idle (connect_call self) = None ∧
   sock_outcome E Connected (SockSend data) = Some e) →
  ∃ w', (_close E self;; _connect E self;; sock_do E (SockSend data)) w
        = (Raise e, w') ∧
        console w' = console w.
Proof.
  intros [Hclose | [[Hclose Hconnect] | (Hclose & Hconnect & Hsend)]].
  - eexists. split; [apply transport_close_fails; exact Hclose | reflexivity].
  - eexists. split;
      [apply transport_connect_fails; [exact Hclose | exact Hconnect] | reflexivity].
  - eexists. split;
      [apply transport_send_fails; [exact Hclose | exact Hconnect | exact Hsend]
      | reflexivity].
Qed.

(** ** What [emit] does *)

Section Emit.
Variable E : collaborators.
Variable self : handler.
Variable level : pyval.
Variable message : string.
Variable w : world.
Variable formatted : string.
Variable prio : Z.
Hypothesis Hformat : base_format E level message = Ok formatted.
Hypothesis Hprio :
  encodePriority (facility self) (PyStr (mapPriority level)) = Ok prio.

Local Abbreviation data := (payload self formatted prio).
Local Abbreviation w0 :=
  (World (conn w) (sock_log w) (console w ++ trace_lines message formatted)).

(** All three socket calls succeed. *)
Lemma emit_succeeds :
  sock_outcome E (conn w) SockClose = None →
  sock_outcome E Idle (connect_call self) = None →
  sock_outcome E Connected (SockSend data) = None →
  emit E self level message w =
  (Ok tt,
   World Connected (sock_log w ++ [SockClose; connect_call self; SockSend data])
     (console w ++ trace_lines message formatted)).
Proof.
  intros Hclose Hconnect Hsend.
  rewrite (emit_prologue _ _ _ _ _ _ _ Hformat Hprio).
  apply try_except_returned.
  apply (transport_succeeds E self data w0); assumption.
Qed.

(** A socket call raises [e]: the world at that point is [w'], and the
    [except] clause decides. *)
Lemma emit_raised e w' :
  (_close E self;; _connect E self;; sock_do E (SockSend data)) w0 = (Raise e, w') →
  emit E self level message w =
  if isinstance e RuntimeError
  then match traceback_outcome E e with
       | None =>
           (Ok tt,
            World (conn w') (sock_log w') (console w' ++ failure_report message e))
       | Some e' =>
           (Raise e',
            World (conn w') (sock_log w') (console w' ++ report_lines message))
       end
  else (Raise e, w').
Proof.
  intros Hbody.
  rewrite (emit_prologue _ _ _ _ _ _ _ Hformat Hprio).
  apply try_except_raised, Hbody.
Qed.

(** Once [close] and [connect] have succeeded, the payload is handed to
    [send], whatever [send] then does. *)
Lemma emit_sock_log :
  sock_outcome E (conn w) SockClose = None →
  sock_outcome E Idle (connect_call self) = None →
  sock_log (snd (emit E self level message w)) =
  (sock_log w ++ [SockClose; connect_call self; SockSend data])%list.
Proof.
  intros Hclose Hconnect.
  destruct (sock_outcome E Connected (SockSend data)) as [e | ] eqn:Hsend.
  - rewrite (emit_raised e _ (transport_send_fails E self data w0 e Hclose Hconnect Hsend)).
    destruct (isinstance e RuntimeError); [| reflexivity].
    destruct (traceback_outcome E e); reflexivity.
  - rewrite (emit_succeeds Hclose Hconnect Hsend). reflexivity.
Qed.
End Emit.

(** C1: with [ident = "host1 "], [append_nul] set, facility User, the
    identity formatter and a level that maps to ["info"], emitting
    ["hello"] hands to [send] exactly sixteen bytes: those of [<14>], of
    [host1 ] and of [hello], followed by one NUL byte, with nothing in
    between. *)
Theorem emit_payload_host1_hello E self level w :
  ident self = "host1 " →
  append_nul self = true →
  facility self = PyInt LOG_USER →
  (∀ l m, base_format E l m = Ok m) →
  mapPriority level = "info" →
  sock_outcome E (conn w) SockClose = None →
  sock_outcome E Idle (connect_call self) = None →
  sock_log (snd (emit E self level "hello" w)) =
  (sock_log w ++
   [SockClose; connect_call self;
    SockSend ["<"; "1"; "4"; ">";
              "h"; "o"; "s"; "t"; "1"; " ";
              "h"; "e"; "l"; "l"; "o";
              "000"]%byte])%list.
Proof.
  intros Hident Hnul Hfacility Hformat Hlevel Hclose Hconnect.
  assert (Hprio : encodePriority (facility self) (PyStr (mapPriority level)) = Ok 14).
  { rewrite Hfacility, Hlevel. reflexivity. }
  rewrite (emit_sock_log E self level "hello" w "hello" 14
             (Hformat _ _) Hprio Hclose Hconnect).
  unfold payload. rewrite Hident, Hnul. reflexivity.
Qed.

Lemma emit_payload_host1_hello_witness :
  sock_log (snd (emit example_collaborators example_handler (PyStr "INFO")
                   "hello" fresh_world)) =
  [SockClose; SockConnect ("logs.example", 514) UDP_MODE;
   SockSend ["<"; "1"; "4"; ">";
             "h"; "o"; "s"; "t"; "1"; " ";
             "h"; "e"; "l"; "l"; "o";
             "000"]%byte].
Proof.
  apply (emit_payload_host1_hello example_collaborators example_handler
           (PyStr "INFO") fresh_world); reflexivity.
Defined.

Lemma encodePriority_warning_keyword (fac : pyval) :
  encodePriority fac (PyStr "warning") = encodePriority fac (PyInt LOG_WARNING).
Proof.
  unfold encodePriority.
  destruct (resolve_keyword facility_names fac); reflexivity.
Qed.

(** C3: for every integer level, [mapPriority] falls back to ["warning"],
    so the priority [emit] puts in the header is that of the facility with
    severity [LOG_WARNING]: [(facility << 3) | 4] for an integer facility,
    whatever the level is. *)
Theorem emit_integer_level_is_warning E self (n : Z) message w formatted prio :
  base_format E (PyInt n) message = Ok formatted →
  encodePriority (facility self) (PyInt LOG_WARNING) = Ok prio →
  sock_outcome E (conn w) SockClose = None →
  sock_outcome E Idle (connect_call self) = None →
  mapPriority (PyInt n) = "warning" ∧
  (∀ f, facility self = PyInt f → prio = Z.lor (Z.shiftl f 3) 4) ∧
  sock_log (snd (emit E self (PyInt n) message w)) =
  (sock_log w ++
   [SockClose; connect_call self; SockSend (payload self formatted prio)])%list ∧
  ∃ rest, payload self formatted prio =
          (encode_utf8 ("<" +:+ percent_d prio +:+ ">") ++ rest)%list.
Proof.
  intros Hformat Hprio Hclose Hconnect.
  split; [reflexivity |]. split; [| split].
  - intros f Hf. rewrite Hf in Hprio. injection Hprio as <-. reflexivity.
  - apply emit_sock_log; [exact Hformat | | exact Hclose | exact Hconnect].
    change (mapPriority (PyInt n)) with "warning".
    rewrite encodePriority_warning_keyword. exact Hprio.
  - eexists. reflexivity.
Qed.

Lemma emit_integer_level_is_warning_witness :
  sock_log (snd (emit example_collaborators example_handler (PyInt 20)
                   "hello" fresh_world)) =
  [SockClose; SockConnect ("logs.example", 514) UDP_MODE;
   SockSend (encode_utf8 ("<12>host1 hello" +:+ NUL))].
Proof.
  apply (emit_integer_level_is_warning example_collaborators example_handler
           20 "hello" fresh_world "hello" 12); reflexivity.
Defined.

(** ** Transport failures *)

(** Among the classes modelled, the instances of [RuntimeError] are those
    of [RuntimeError] itself and of its subclass [NotImplementedError]. *)
Lemma isinstance_RuntimeError e :
  isinstance e RuntimeError = true ↔
  exc_class e = RuntimeError ∨ exc_class e = NotImplementedError.
Proof.
  destruct e as [cls arg]. unfold isinstance. cbn [exc_class].
  destruct cls; vm_compute; split;
    first [ intros H; discriminate H
          | intros [H | H]; discriminate H
          | intros _; auto ].
Qed.

(** C4: what the code does where the claim wants the failure reported
    and [emit] to return.  When [close] has succeeded and [connect] or
    [send] raises a [RuntimeError], the [except] branch prints its banner
    and the message as it was passed in, and then calls
    [traceback.print_exception] with the keyword [etype].  Where that call
    is accepted the traceback is written and [emit] returns normally; where
    it raises, the exception it raises leaves [emit] and the error detail
    never reaches the console. *)
Theorem emit_transport_failure_outcome
    E self level message w formatted prio e :
  base_format E level message = Ok formatted →
  encodePriority (facility self) (PyStr (mapPriority level)) = Ok prio →
  sock_outcome E (conn w) SockClose = None →
  sock_outcome E Idle (connect_call self) = Some e ∨
  (sock_outcome E Idle (connect_call self) = None ∧
   sock_outcome E Connected (SockSend (payload self formatted prio)) = Some e) →
  isinstance e RuntimeError = true →
  fst (emit E self level message w) =
    match traceback_outcome E e with
    | None => Ok tt
    | Some e' => Raise e'
    end ∧
  console (snd (emit E self level message w)) =
  (console w ++ trace_lines message formatted ++ report_lines message ++
   match traceback_outcome E e with
   | None => [PrintException e]
   | Some _ => []
   end)%list.
Proof.
  intros Hformat Hprio Hclose Hfail Hrt.
  destruct (transport_raises E self (payload self formatted prio)
              (World (conn w) (sock_log w)
                 (console w ++ trace_lines message formatted)) e)
    as (w' & Hbody & Hconsole).
  { cbn [conn]. destruct Hfail as [Hconnect | [Hconnect Hsend]]; auto. }
  rewrite (emit_raised E self level message w formatted prio Hformat Hprio e w' Hbody).
  rewrite Hrt.
  destruct (traceback_outcome E e) as [e' | ];
    cbn [fst snd console]; rewrite Hconsole; cbn [console];
    unfold failure_report, report_lines; rewrite <- !app_assoc;
    split; reflexivity.
Qed.

Lemma emit_transport_failure_outcome_witness :
  fst (emit (failing_connect RuntimeError) example_handler (PyStr "INFO")
         "hello" fresh_world) =
  Raise (Exn TypeError
           "print_exception() got an unexpected keyword argument 'etype'") ∧
  console (snd (emit (failing_connect RuntimeError) example_handler
                  (PyStr "INFO") "hello" fresh_world)) =
  [Print "Received message: hello";
   Print "Formatted message: hello";
   Print "--- LOGGING ERROR ---";
   Print "With message: hello"].
Proof.
  apply (emit_transport_failure_outcome (failing_connect RuntimeError)
           example_handler (PyStr "INFO") "hello" fresh_world "hello" 14
           (Exn RuntimeError "Failed to connect")).
  - reflexivity.
  - reflexivity.
  - reflexivity.
  - left. reflexivity.
  - reflexivity.
Defined.

(** C6: the [except] clause, for whichever of [close], [connect] and
    [send] raises first.  An exception that is no instance of
    [RuntimeError] is not caught: it leaves [emit] unchanged and nothing is
    reported.  An instance of [RuntimeError] is caught and the report is
    begun, but whether it is suppressed is decided by the traceback call of
    the handler: [emit] returns normally where that call is accepted, and
    raises the exception of that call where it is not. *)
Theorem emit_except_clause
    E self level message w formatted prio e :
  base_format E level message = Ok formatted →
  encodePriority (facility self) (PyStr (mapPriority level)) = Ok prio →
  sock_outcome E (conn w) SockClose = Some e ∨
  (sock_outcome E (conn w) SockClose = None ∧
   sock_outcome E Idle (connect_call self) = Some e) ∨
  (sock_outcome E (conn w) SockClose = None ∧
   sock_outcome E Idle (connect_call self) = None ∧
   sock_outcome E Connected (SockSend (payload self formatted prio)) = Some e) →
  (isinstance e RuntimeError = false →
   fst (emit E self level message w) = Raise e ∧
   console (snd (emit E self level message w)) =
   (console w ++ trace_lines message formatted)%list) ∧
  (isinstance e RuntimeError = true →
   fst (emit E self level message w) =
     match traceback_outcome E e with
     | None => Ok tt
     | Some e' => Raise e'
     end ∧
   ∃ rest,
     console (snd (emit E self level message w)) =
     (console w ++ trace_lines message formatted ++ report_lines message ++ rest)%list).
Proof.
  intros Hformat Hprio Hfail.
  destruct (transport_raises E self (payload self formatted prio)
              (World (conn w) (sock_log w)
                 (console w ++ trace_lines message formatted)) e Hfail)
    as (w' & Hbody & Hconsole).
  rewrite (emit_raised E self level message w formatted prio Hformat Hprio e w' Hbody).
  cbn [console] in Hconsole.
  split; intros Hrt; rewrite Hrt.
  - split; [reflexivity | exact Hconsole].
  - destruct (traceback_outcome E e) as [e' | ]; cbn [fst snd console];
      rewrite Hconsole; (split; [reflexivity |]).
    + exists []. rewrite app_nil_r, <- app_assoc. reflexivity.
    + exists [PrintException e]. unfold failure_report, report_lines.
      rewrite <- !app_assoc. reflexivity.
Qed.

Lemma emit_except_clause_witness :
  fst (emit (failing_connect OSError) example_handler (PyStr "INFO")
         "hello" fresh_world) = Raise (Exn OSError "Failed to connect") ∧
  fst (emit (failing_connect RuntimeError) example_handler (PyStr "INFO")
         "hello" fresh_world) =
  Raise (Exn TypeError
           "print_exception() got an unexpected keyword argument 'etype'") ∧
  fst (emit (failing_connect_named RuntimeError) example_handler (PyStr "INFO")
         "hello" fresh_world) = Ok tt.
Proof.
  split; [| split].
  - apply (emit_except_clause (failing_connect OSError)
             example_handler (PyStr "INFO") "hello" fresh_world "hello" 14
             (Exn OSError "Failed to connect")); try reflexivity.
    right. left. split; reflexivity.
  - apply (emit_except_clause (failing_connect RuntimeError)
             example_handler (PyStr "INFO") "hello" fresh_world "hello" 14
             (Exn RuntimeError "Failed to connect")); try reflexivity.
    right. left. split; reflexivity.
  - apply (emit_except_clause (failing_connect_named RuntimeError)
             example_handler (PyStr "INFO") "hello" fresh_world "hello" 14
             (Exn RuntimeError "Failed to connect")); try reflexivity.
    right. left. split; reflexivity.
Defined.

(** ** The connection across [emit] *)

(** C5, as the claim states it, fails: after an [emit] on which every
    socket call succeeds the connection is still open, and the last call
    made on the socket is the [send], not a [close]. *)
Lemma emit_leaves_connection_open :
  fst (emit example_collaborators example_handler (PyStr "INFO") "hello"
         fresh_world) = Ok tt ∧
  conn (snd (emit example_collaborators example_handler (PyStr "INFO") "hello"
               fresh_world)) = Connected ∧
  conn (snd (emit example_collaborators example_handler (PyStr "INFO") "hello"
               fresh_world)) ≠ Idle ∧
  sock_log (snd (emit example_collaborators example_handler (PyStr "INFO")
                   "hello" fresh_world)) =
  [SockClose; SockConnect ("logs.example", 514) UDP_MODE;
   SockSend (encode_utf8 ("<14>host1 hello" +:+ NUL))].
Proof.
  split; [reflexivity |]. split; [reflexivity |].
  split; [intros H; discriminate H | reflexivity].
Qed.

(** C5, amended: an [emit] on which every socket call succeeds makes
    exactly three calls, in the order close, connect, send.  Whatever state
    the previous call left, the socket goes to Idle, then to Connected, and
    stays Connected: the connection is still open when [emit] returns, and
    it is the close at the start of the next [emit] that ends it. *)
Theorem emit_close_connect_send E self level message w formatted prio :
  base_format E level message = Ok formatted →
  encodePriority (facility self) (PyStr (mapPriority level)) = Ok prio →
  sock_outcome E (conn w) SockClose = None →
  sock_outcome E Idle (connect_call self) = None →
  sock_outcome E Connected (SockSend (payload self formatted prio)) = None →
  fst (emit E self level message w) = Ok tt ∧
  sock_log (snd (emit E self level message w)) =
  (sock_log w ++
   [SockClose; connect_call self; SockSend (payload self formatted prio)])%list ∧
  conn_states (conn w)
    [SockClose; connect_call self; SockSend (payload self formatted prio)]
  = [Idle; Connected; Connected] ∧
  conn (snd (emit E self level message w)) = Connected.
Proof.
  intros Hformat Hprio Hclose Hconnect Hsend.
  rewrite (emit_succeeds E self level message w formatted prio
             Hformat Hprio Hclose Hconnect Hsend).
  repeat split; reflexivity.
Qed.

Lemma emit_close_connect_send_witness :
  conn (snd (emit example_collaborators example_handler (PyStr "INFO") "hello"
               (World Connected [] []))) = Connected.
Proof.
  apply (emit_close_connect_send example_collaborators example_handler
           (PyStr "INFO") "hello" (World Connected [] []) "hello" 14);
    reflexivity.
Defined.

(** ** Construction *)

Lemma ascii_lower_t c : ascii_lower c = "t"%char → c = "t"%char ∨ c = "T"%char.
Proof.
  destruct c as [[] [] [] [] [] [] [] []]; vm_compute; intros H;
    first [discriminate H | left; reflexivity | right; reflexivity].
Qed.

Lemma ascii_lower_c c : ascii_lower c = "c"%char → c = "c"%char ∨ c = "C"%char.
Proof.
  destruct c as [[] [] [] [] [] [] [] []]; vm_compute; intros H;
    first [discriminate H | left; reflexivity | right; reflexivity].
Qed.

Lemma ascii_lower_p c : ascii_lower c = "p"%char → c = "p"%char ∨ c = "P"%char.
Proof.
  destruct c as [[] [] [] [] [] [] [] []]; vm_compute; intros H;
    first [discriminate H | left; reflexivity | right; reflexivity].
Qed.

(** Lowering gives "tcp" exactly for the eight spellings of it. *)
Lemma str_lower_tcp (s : string) :
  String.eqb (str_lower s) "tcp" = true ↔ In s tcp_spellings.
Proof.
  rewrite String.eqb_eq. split.
  - destruct s as [ | a [ | b [ | c [ | d s]]]]; cbn [str_lower];
      intros H; try discriminate H.
    injection H as Ha Hb Hc.
    destruct (ascii_lower_t a Ha) as [-> | ->],
             (ascii_lower_c b Hb) as [-> | ->],
             (ascii_lower_p c Hc) as [-> | ->];
      unfold tcp_spellings; cbn [In];
      repeat first [left; reflexivity | right].
  - unfold tcp_spellings. cbn [In].
    intros H.
    repeat (destruct H as [<- | H]; [reflexivity |]).
    destruct H.
Qed.

(** C10: when the resolver answers, construction succeeds; the transport
    is the stream one exactly when [protocol] is one of the spellings of
    "tcp", and the datagram one when it is absent or anything else; a port
    left out is 514 and a facility left out is [LOG_USER], whatever the
    protocol. *)
Theorem init_transport_and_defaults
    E host (port_arg : option Z) (facility_arg : option pyval)
    (protocol : option string) info infos :
  getaddrinfo E host (default SYSLOG_UDP_PORT port_arg) = Ok (info :: infos) →
  ∃ h, __init__ E host port_arg facility_arg protocol = Ok h ∧
    ((∃ s, protocol = Some s ∧ In s tcp_spellings) →
       _socktype h = SOCK_STREAM ∧ _conntype h = TCP_MODE) ∧
    (¬ (∃ s, protocol = Some s ∧ In s tcp_spellings) →
       _socktype h = SOCK_DGRAM ∧ _conntype h = UDP_MODE) ∧
    (port_arg = None → port h = 514) ∧
    (facility_arg = None → facility h = PyInt 1).
Proof.
  intros Hresolve. unfold __init__.
  destruct protocol as [s | ];
    [destruct (String.eqb (str_lower s) "tcp") eqn:Htcp | ];
    rewrite Hresolve; eexists; (split; [reflexivity |]);
    cbn [_socktype _conntype port facility];
    (split; [ | split; [ | split; intros ->; reflexivity]]).
  - intros _. split; reflexivity.
  - intros Hnot. exfalso. apply Hnot. exists s. split; [reflexivity |].
    apply str_lower_tcp, Htcp.
  - intros (s' & Hs & Hin). injection Hs as <-.
    apply str_lower_tcp in Hin. congruence.
  - intros _. split; reflexivity.
  - intros (s' & Hs & _). discriminate Hs.
  - intros _. split; reflexivity.
Qed.

Lemma init_transport_and_defaults_witness :
  ∃ h, __init__ example_collaborators "logs.example" None None (Some "TcP") = Ok h ∧
       _socktype h = SOCK_STREAM ∧ _conntype h = TCP_MODE ∧
       port h = 514 ∧ facility h = PyInt 1.
Proof.
  destruct (init_transport_and_defaults example_collaborators "logs.example"
              None None (Some "TcP") (2, SOCK_DGRAM, 0, "", ("logs.example", 514)) [])
    as (h & Hinit & Htcp & _ & Hport & Hfacility).
  - reflexivity.
  - exists h. split; [exact Hinit |].
    destruct Htcp as [Hs Hc].
    + exists "TcP". split; [reflexivity |]. cbn. tauto.
    + auto.
Defined.


(** * Further properties of the handler *)

(** ** The three tables *)

(** Case analysis on a successful lookup in a table written as a list. *)
Ltac table_cases H :=
  apply elem_of_list_to_map_2 in H;
  repeat (apply elem_of_cons in H as [H | H];
          [injection H as -> -> | ]);
  [ .. | apply elem_of_nil in H; destruct H ].

Lemma facility_names_range (k : string) (f : Z) :
  facility_names !! k = Some f → 0 <= f <= 23.
Proof.
  intros H. unfold facility_names in H.
  table_cases H; vm_compute; split; discriminate.
Qed.

Lemma priority_names_range (k : string) (p : Z) :
  priority_names !! k = Some p → 0 <= p <= 7.
Proof.
  intros H. unfold priority_names in H.
  table_cases H; vm_compute; split; discriminate.
Qed.

Lemma priority_map_cases (k v : string) :
  priority_map !! k = Some v →
  (k, v) = ("DEBUG", "debug") ∨ (k, v) = ("INFO", "info") ∨
  (k, v) = ("WARNING", "warning") ∨ (k, v) = ("ERROR", "error") ∨
  (k, v) = ("CRITICAL", "critical").
Proof.
  intros H. unfold priority_map in H.
  table_cases H; auto 6.
Qed.

Lemma mapPriority_cases (level : pyval) :
  mapPriority level = "debug" ∨ mapPriority level = "info" ∨
  mapPriority level = "warning" ∨ mapPriority level = "error" ∨
  mapPriority level = "critical".
Proof.
  unfold mapPriority, dict_get.
  destruct level as [ | n | k]; auto.
  destruct (priority_map !! k) as [v | ] eqn:Hk; auto.
  destruct (priority_map_cases k v Hk) as [H | [H | [H | [H | H]]]];
    injection H as _ ->; auto 6.
Qed.

Lemma mapPriority_severity_lookup (level : pyval) :
  ∃ sev, priority_names !! mapPriority level = Some sev ∧
         In sev mapped_severities.
Proof.
  destruct (mapPriority_cases level) as [-> | [-> | [-> | [-> | ->]]]].
  - exists LOG_DEBUG. split; [reflexivity | cbn; tauto].
  - exists LOG_INFO. split; [reflexivity | cbn; tauto].
  - exists LOG_WARNING. split; [reflexivity | cbn; tauto].
  - exists LOG_ERR. split; [reflexivity | cbn; tauto].
  - exists LOG_CRIT. split; [reflexivity | cbn; tauto].
Qed.

(** ** Level names *)

(** C7, as the claim states it, fails: not every input is mapped.  A list
    cannot be hashed, so the lookup raises a [TypeError] on it instead of
    returning ["warning"]. *)
Lemma mapPriority_unhashable_raises :
  mapPriority_object (PyList []) =
  Raise (Exn TypeError "unhashable type: 'list'") ∧
  mapPriority_object (PyList []) ≠ Ok "warning" ∧
  ¬ (∀ x : pyobj, ∃ keyword, mapPriority_object x = Ok keyword).
Proof.
  split; [reflexivity |]. split; [intros H; discriminate H |].
  intros Htotal. destruct (Htotal (PyList [])) as [keyword H]. discriminate H.
Qed.

(** C7, amended: on every hashable input, [None], a number or a string,
    [mapPriority] does not raise: it returns one of its five keywords, the
    mapped one when the input is a key of [priority_map] and ["warning"]
    when it is not. *)
Theorem mapPriority_total_hashable (x : pyval) :
  ∃ keyword, mapPriority_object (PyScalar x) = Ok keyword ∧
    In keyword mapped_keywords ∧
    (∀ k v, x = PyStr k → priority_map !! k = Some v → keyword = v) ∧
    ((∀ k, x = PyStr k → priority_map !! k = None) → keyword = "warning").
Proof.
  exists (mapPriority x). split; [reflexivity |]. split; [| split].
  - destruct (mapPriority_cases x) as [-> | [-> | [-> | [-> | ->]]]];
      cbn; tauto.
  - intros k v -> Hk. unfold mapPriority, dict_get. rewrite Hk. reflexivity.
  - intros Hmissing. unfold mapPriority, dict_get.
    destruct x as [ | n | k]; try reflexivity.
    rewrite (Hmissing k eq_refl). reflexivity.
Qed.

Lemma mapPriority_total_hashable_witness :
  mapPriority_object (PyScalar (PyStr "ERROR")) = Ok "error" ∧
  mapPriority_object (PyScalar (PyStr "info")) = Ok "warning" ∧
  mapPriority_object (PyScalar (PyInt 20)) = Ok "warning".
Proof.
  split; [| split].
  - destruct (mapPriority_total_hashable (PyStr "ERROR"))
      as (keyword & -> & _ & Hmapped & _).
    f_equal. apply (Hmapped "ERROR" "error"); reflexivity.
  - destruct (mapPriority_total_hashable (PyStr "info"))
      as (keyword & -> & _ & _ & Hdefault).
    f_equal. apply Hdefault. intros k Hk. injection Hk as <-. reflexivity.
  - destruct (mapPriority_total_hashable (PyInt 20))
      as (keyword & -> & _ & _ & Hdefault).
    f_equal. apply Hdefault. intros k Hk. discriminate Hk.
Defined.

(** X1: whatever the level, the keyword [mapPriority] returns is one of the
    five it can map to, that keyword is a key of [priority_names], and its
    severity is one of debug, info, warning, err and crit: the lookup of
    the severity in [encodePriority] cannot fail on it, and the severities
    emerg, alert and notice are never produced. *)
Theorem mapPriority_severity (level : pyval) :
  In (mapPriority level) mapped_keywords ∧
  ∃ sev, priority_names !! mapPriority level = Some sev ∧
         In sev mapped_severities ∧
         sev ≠ LOG_EMERG ∧ sev ≠ LOG_ALERT ∧ sev ≠ LOG_NOTICE.
Proof.
  split.
  - destruct (mapPriority_cases level) as [-> | [-> | [-> | [-> | ->]]]];
      cbn; tauto.
  - destruct (mapPriority_severity_lookup level) as (sev & Hsev & Hin).
    exists sev. split; [exact Hsev |]. split; [exact Hin |].
    cbn in Hin.
    destruct Hin as [<- | [<- | [<- | [<- | [<- | []]]]]];
      repeat split; discriminate.
Qed.

(** X2: level names are matched exactly: [mapPriority] returns a keyword
    other than ["warning"] only for the [str] that is its upper-case
    spelling, so a name in another case, or a number, gets ["warning"]. *)
Theorem mapPriority_exact_names (level : pyval) :
  (mapPriority level = "debug" ↔ level = PyStr "DEBUG") ∧
  (mapPriority level = "info" ↔ level = PyStr "INFO") ∧
  (mapPriority level = "error" ↔ level = PyStr "ERROR") ∧
  (mapPriority level = "critical" ↔ level = PyStr "CRITICAL").
Proof.
  assert (Hinv : ∀ v, mapPriority level = v → v ≠ "warning" →
                      ∃ k, level = PyStr k ∧ priority_map !! k = Some v).
  { intros v Hv Hne. unfold mapPriority, dict_get in Hv.
    destruct level as [ | n | k]; try congruence.
    destruct (priority_map !! k) as [v' | ] eqn:Hk; try congruence.
    exists k. split; [reflexivity | congruence]. }
  repeat split; try (intros ->; reflexivity); intros Hv;
    (destruct (Hinv _ Hv) as (k & -> & Hk); [discriminate |]);
    (destruct (priority_map_cases _ _ Hk) as [H | [H | [H | [H | H]]]];
     try discriminate H; injection H as ->; reflexivity).
Qed.

Lemma mapPriority_exact_names_witness :
  mapPriority (PyStr "INFO") = "info" ∧ mapPriority (PyStr "info") ≠ "info".
Proof.
  split.
  - apply (mapPriority_exact_names (PyStr "INFO")). reflexivity.
  - intros H. apply (mapPriority_exact_names (PyStr "info")) in H.
    discriminate H.
Defined.

(** ** [encodePriority] beyond the valid codes *)

(** X3: for keywords of the two tables, [encodePriority] returns a value
    between 0 and 191 whose upper bits are the facility code of the first
    keyword and whose three low bits are the severity code of the second:
    every code in the tables is in range. *)
Theorem encodePriority_keywords_in_range (fk pk : string) (f p : Z) :
  facility_names !! fk = Some f →
  priority_names !! pk = Some p →
  ∃ value, encodePriority (PyStr fk) (PyStr pk) = Ok value ∧
           0 <= value <= 191 ∧
           Z.shiftr value 3 = f ∧ Z.land value 7 = p.
Proof.
  intros Hf Hp.
  pose proof (facility_names_range fk f Hf) as Hfr.
  pose proof (priority_names_range pk p Hp) as Hpr.
  exists (f * 8 + p). split; [| split].
  - unfold encodePriority.
    rewrite (resolve_keyword_known _ _ _ Hf), (resolve_keyword_known _ _ _ Hp).
    cbn [mbind result_bind py_lshift py_or].
    rewrite shiftl3_lor_add by lia. reflexivity.
  - lia.
  - apply priority_decompose. lia.
Qed.

Lemma encodePriority_keywords_in_range_witness :
  ∃ value, encodePriority (PyStr "local7") (PyStr "debug") = Ok value ∧
           0 <= value <= 191 ∧
           Z.shiftr value 3 = 23 ∧ Z.land value 7 = 7.
Proof.
  apply (encodePriority_keywords_in_range "local7" "debug" 23 7); reflexivity.
Defined.

Lemma land_shiftl3_7 (f : Z) : Z.land (Z.shiftl f 3) 7 = 0.
Proof.
  change 7 with (Z.ones 3). rewrite Z.land_ones by lia.
  rewrite Z.shiftl_mul_pow2 by lia. apply Z.mod_mul. lia.
Qed.

(** X4: [encodePriority] checks no range.  For any two integers it returns
    a value whose three low bits are those of the priority and whose upper
    bits are the facility or-ed with the bits of the priority above the
    third: a priority outside 0..7 spills into the facility. *)
Theorem encodePriority_unchecked (f s : Z) :
  ∃ value, encodePriority (PyInt f) (PyInt s) = Ok value ∧
           Z.shiftr value 3 = Z.lor f (Z.shiftr s 3) ∧
           Z.land value 7 = Z.land s 7.
Proof.
  exists (Z.lor (Z.shiftl f 3) s). split; [apply encodePriority_ints |]. split.
  - rewrite Z.shiftr_lor. rewrite Z.shiftr_shiftl_l by lia.
    change (3 - 3) with 0. rewrite Z.shiftl_0_r. reflexivity.
  - rewrite Z.land_lor_distr_l, land_shiftl3_7. apply Z.lor_0_l.
Qed.

(** X5: the order of failures in [encodePriority].  The facility keyword is
    looked up first, so when both keywords are unknown the [KeyError] names
    the facility; an unknown priority keyword is reported before a facility
    that is no number is noticed; and a facility or a priority that is
    [None] makes the shift or the or raise a [TypeError]. *)
Theorem encodePriority_failure_order :
  (∀ fk pk, facility_names !! fk = None → priority_names !! pk = None →
     encodePriority (PyStr fk) (PyStr pk) = Raise (Exn KeyError fk)) ∧
  (∀ pk, priority_names !! pk = None →
     encodePriority PyNone (PyStr pk) = Raise (Exn KeyError pk)) ∧
  (∀ priority, (∀ pk, priority = PyStr pk → is_Some (priority_names !! pk)) →
     ∃ e, encodePriority PyNone priority = Raise e ∧ exc_class e = TypeError) ∧
  (∀ facility, (∀ fk, facility = PyStr fk → is_Some (facility_names !! fk)) →
     ∃ e, encodePriority facility PyNone = Raise e ∧ exc_class e = TypeError).
Proof.
  split; [| split; [| split]].
  - intros fk pk Hf _. unfold encodePriority.
    rewrite (resolve_keyword_unknown _ _ Hf). reflexivity.
  - intros pk Hp. unfold encodePriority.
    rewrite (resolve_keyword_unknown _ _ Hp). reflexivity.
  - intros priority Hknown. unfold encodePriority.
    destruct priority as [ | n | pk].
    + eexists. split; reflexivity.
    + eexists. split; reflexivity.
    + destruct (Hknown pk eq_refl) as [p Hp].
      rewrite (resolve_keyword_known _ _ _ Hp). eexists. split; reflexivity.
  - intros facility Hknown. unfold encodePriority.
    destruct facility as [ | n | fk].
    + eexists. split; reflexivity.
    + eexists. split; reflexivity.
    + destruct (Hknown fk eq_refl) as [f Hf].
      rewrite (resolve_keyword_known _ _ _ Hf). eexists. split; reflexivity.
Qed.

Lemma encodePriority_failure_order_witness :
  encodePriority (PyStr "local8") (PyStr "fatal") = Raise (Exn KeyError "local8") ∧
  encodePriority PyNone (PyStr "fatal") = Raise (Exn KeyError "fatal") ∧
  (∃ e, encodePriority PyNone (PyStr "info") = Raise e ∧ exc_class e = TypeError) ∧
  (∃ e, encodePriority (PyStr "user") PyNone = Raise e ∧ exc_class e = TypeError).
Proof.
  destruct encodePriority_failure_order as (H1 & H2 & H3 & H4).
  split; [apply H1; reflexivity |].
  split; [apply H2; reflexivity |].
  split.
  - apply H3. intros pk Hpk. injection Hpk as <-. eexists. reflexivity.
  - apply H4. intros fk Hfk. injection Hfk as <-. eexists. reflexivity.
Defined.

(** ** The payload *)

Lemma append_cons (x : ascii) (a b : string) :
  String x a +:+ b = String x (a +:+ b).
Proof. reflexivity. Qed.

Lemma append_assoc_str (a b c : string) : (a +:+ b) +:+ c = a +:+ (b +:+ c).
Proof.
  induction a as [ | x a IH]; [reflexivity |].
  rewrite !append_cons, IH. reflexivity.
Qed.

Lemma append_empty_r (a : string) : a +:+ "" = a.
Proof.
  induction a as [ | x a IH]; [reflexivity |].
  rewrite append_cons, IH. reflexivity.
Qed.

Lemma encode_utf8_app (a b : string) :
  encode_utf8 (a +:+ b) = (encode_utf8 a ++ encode_utf8 b)%list.
Proof.
  unfold encode_utf8, list_byte_of_string.
  induction a as [ | x a IH]; [reflexivity |].
  rewrite append_cons. simpl. rewrite IH. reflexivity.
Qed.

Lemma payload_wire_format (self : handler) (formatted : string) (prio : Z) :
  payload self formatted prio =
  encode_utf8 ("<" +:+ percent_d prio +:+ ">" +:+ ident self +:+ formatted +:+
               (if append_nul self then NUL else "")).
Proof.
  unfold payload.
  assert (Hident : (if str_truthy (ident self) then ident self +:+ formatted
                    else formatted) = ident self +:+ formatted).
  { destruct (ident self); reflexivity. }
  rewrite Hident.
  assert (Hnul : (if append_nul self then (ident self +:+ formatted) +:+ NUL
                  else ident self +:+ formatted)
                 = ident self +:+ formatted +:+ (if append_nul self then NUL else "")).
  { destruct (append_nul self).
    - apply append_assoc_str.
    - rewrite append_empty_r. reflexivity. }
  rewrite Hnul.
  rewrite <- encode_utf8_app.
  rewrite !append_assoc_str. reflexivity.
Qed.

(** X6: the bytes handed to [send] are, in this order and with nothing
    between them: ["<"], the priority in decimal, [">"], [ident], the
    formatted message, and one NUL when [append_nul] is set.  An empty
    [ident] contributes nothing, and without [append_nul] the payload ends
    with the message. *)
Theorem emit_wire_format E self level message w formatted prio :
  base_format E level message = Ok formatted →
  encodePriority (facility self) (PyStr (mapPriority level)) = Ok prio →
  sock_outcome E (conn w) SockClose = None →
  sock_outcome E Idle (connect_call self) = None →
  sock_log (snd (emit E self level message w)) =
  (sock_log w ++
   [SockClose; connect_call self;
    SockSend (encode_utf8
                ("<" +:+ percent_d prio +:+ ">" +:+ ident self +:+ formatted +:+
                 (if append_nul self then NUL else "")))])%list.
Proof.
  intros Hformat Hprio Hclose Hconnect.
  rewrite (emit_sock_log E self level message w formatted prio
             Hformat Hprio Hclose Hconnect).
  rewrite payload_wire_format. reflexivity.
Qed.

Lemma emit_wire_format_witness :
  sock_log (snd (emit example_collaborators
                   (Handler "h" 514 (PyStr "daemon") SOCK_STREAM TCP_MODE
                      ("h", 514) PyNone "" false)
                   (PyStr "ERROR") "disk full" fresh_world)) =
  [SockClose; SockConnect ("h", 514) TCP_MODE;
   SockSend (encode_utf8 "<27>disk full")].
Proof.
  apply (emit_wire_format example_collaborators
           (Handler "h" 514 (PyStr "daemon") SOCK_STREAM TCP_MODE
              ("h", 514) PyNone "" false)
           (PyStr "ERROR") "disk full" fresh_world "disk full" 27);
    reflexivity.
Defined.

(** ** Failures before the socket is touched *)

Lemma emit_format_raises E self level message w e :
  base_format E level message = Raise e →
  emit E self level message w =
  (Raise e,
   World (conn w) (sock_log w)
     (console w ++ [Print ("Received message: " +:+ message)])).
Proof.
  intros Hformat.
  cbv beta iota delta [emit format lift print mbind M_bind conn sock_log console].
  rewrite Hformat. reflexivity.
Qed.

Lemma emit_priority_raises E self level message w formatted e :
  base_format E level message = Ok formatted →
  encodePriority (facility self) (PyStr (mapPriority level)) = Raise e →
  emit E self level message w =
  (Raise e,
   World (conn w) (sock_log w) (console w ++ trace_lines message formatted)).
Proof.
  intros Hformat Hprio.
  cbv beta iota delta [emit format lift print mbind M_bind conn sock_log console].
  rewrite Hformat. cbv beta iota. rewrite Hprio. cbv beta iota.
  rewrite <- app_assoc. reflexivity.
Qed.

(** X7: the formatter runs outside the [try]: when it raises, [emit] raises
    the same exception, whatever its class, makes no call on the socket and
    has printed only the line with the received message. *)
Theorem emit_formatter_failure_propagates E self level message w e :
  base_format E level message = Raise e →
  fst (emit E self level message w) = Raise e ∧
  sock_log (snd (emit E self level message w)) = sock_log w ∧
  conn (snd (emit E self level message w)) = conn w ∧
  console (snd (emit E self level message w)) =
  (console w ++ [Print ("Received message: " +:+ message)])%list.
Proof.
  intros Hformat. rewrite (emit_format_raises E self level message w e Hformat).
  repeat split; reflexivity.
Qed.

Lemma emit_formatter_failure_propagates_witness :
  fst (emit (failing_format (Exn RuntimeError "no clock")) example_handler
         (PyInt 20) "hello" fresh_world) = Raise (Exn RuntimeError "no clock") ∧
  sock_log (snd (emit (failing_format (Exn RuntimeError "no clock"))
                   example_handler (PyInt 20) "hello" fresh_world)) = [].
Proof.
  destruct (emit_formatter_failure_propagates
              (failing_format (Exn RuntimeError "no clock")) example_handler
              (PyInt 20) "hello" fresh_world (Exn RuntimeError "no clock"))
    as (Hres & Hlog & _).
  - reflexivity.
  - split; [exact Hres | exact Hlog].
Defined.

(** What the constructor returns once the resolver has answered. *)
Lemma init_returns E host (port_arg : option Z) (facility_arg : option pyval)
    (protocol : option string) info infos :
  getaddrinfo E host (default SYSLOG_UDP_PORT port_arg) = Ok (info :: infos) →
  ∃ socktype conntype,
    __init__ E host port_arg facility_arg protocol =
    Ok (Handler host (default SYSLOG_UDP_PORT port_arg)
          (default (PyInt LOG_USER) facility_arg) socktype conntype
          (addrinfo_4 info) PyNone "" true) ∧
    ((socktype, conntype) = (SOCK_STREAM, TCP_MODE) ∨
     (socktype, conntype) = (SOCK_DGRAM, UDP_MODE)).
Proof.
  intros Hresolve. unfold __init__.
  destruct protocol as [s | ]; [destruct (String.eqb (str_lower s) "tcp") |];
    rewrite Hresolve; do 2 eexists; (split; [reflexivity | auto]).
Qed.

(** X8: the constructor does not look at the facility: with a facility
    keyword that is in no table it still returns a handler, and it is each
    [emit] on that handler that raises the [KeyError] of the keyword, for
    every level and message the formatter accepts, before any call on the
    socket. *)
Theorem unknown_facility_fails_at_emit
    E host (port_arg : option Z) (protocol : option string) info infos
    (keyword : string) :
  getaddrinfo E host (default SYSLOG_UDP_PORT port_arg) = Ok (info :: infos) →
  facility_names !! keyword = None →
  ∃ h, __init__ E host port_arg (Some (PyStr keyword)) protocol = Ok h ∧
    ∀ level message w formatted,
      base_format E level message = Ok formatted →
      fst (emit E h level message w) = Raise (Exn KeyError keyword) ∧
      sock_log (snd (emit E h level message w)) = sock_log w.
Proof.
  intros Hresolve Hunknown.
  destruct (init_returns E host port_arg (Some (PyStr keyword))
              protocol info infos Hresolve) as (socktype & conntype & Hinit & _).
  eexists. split; [exact Hinit |].
  intros level message w formatted Hformat.
  erewrite emit_priority_raises; [split; reflexivity | exact Hformat |].
  change (encodePriority (PyStr keyword) (PyStr (mapPriority level))
          = Raise (Exn KeyError keyword)).
  unfold encodePriority.
  rewrite (resolve_keyword_unknown _ _ Hunknown). reflexivity.
Qed.

Lemma unknown_facility_fails_at_emit_witness :
  ∃ h, __init__ example_collaborators "logs.example" None
         (Some (PyStr "local8")) None = Ok h ∧
       fst (emit example_collaborators h (PyStr "INFO") "hello" fresh_world)
       = Raise (Exn KeyError "local8").
Proof.
  destruct (unknown_facility_fails_at_emit example_collaborators "logs.example"
              None None (2, SOCK_DGRAM, 0, "", ("logs.example", 514)) [] "local8")
    as (h & Hinit & Hemit).
  - reflexivity.
  - reflexivity.
  - exists h. split; [exact Hinit |].
    apply (Hemit (PyStr "INFO") "hello" fresh_world "hello"). reflexivity.
Defined.

(** X9: with a facility that is an integer, or a keyword of
    [facility_names], the priority of every [emit] is computed without
    error, whatever the level: it is the facility code times 8 plus one of
    the five severities [mapPriority] can select. *)
Theorem emit_priority_defined (fac : pyval) (f : Z) (level : pyval) :
  fac = PyInt f ∨ (∃ k, fac = PyStr k ∧ facility_names !! k = Some f) →
  ∃ sev, In sev mapped_severities ∧
         priority_names !! mapPriority level = Some sev ∧
         encodePriority fac (PyStr (mapPriority level)) = Ok (f * 8 + sev).
Proof.
  intros Hfac.
  destruct (mapPriority_severity_lookup level) as (sev & Hsev & Hin).
  exists sev. split; [exact Hin |]. split; [exact Hsev |].
  pose proof (priority_names_range _ _ Hsev) as Hrange.
  unfold encodePriority.
  rewrite (resolve_keyword_known _ _ _ Hsev).
  destruct Hfac as [-> | (k & -> & Hk)].
  - cbn [resolve_keyword mret result_ret mbind result_bind py_lshift py_or].
    rewrite shiftl3_lor_add by lia. reflexivity.
  - rewrite (resolve_keyword_known _ _ _ Hk).
    cbn [mbind result_bind py_lshift py_or].
    rewrite shiftl3_lor_add by lia. reflexivity.
Qed.

Lemma emit_priority_defined_witness :
  ∃ sev, In sev mapped_severities ∧
         priority_names !! mapPriority (PyStr "CRITICAL") = Some sev ∧
         encodePriority (PyStr "local0") (PyStr (mapPriority (PyStr "CRITICAL")))
         = Ok (16 * 8 + sev).
Proof.
  apply (emit_priority_defined (PyStr "local0") 16 (PyStr "CRITICAL")).
  right. exists "local0". split; reflexivity.
Defined.

(** ** What reaches the socket *)

(** X11: [send] is reached only after [close] and [connect] have both
    succeeded.  When the leading [close] raises, the socket has seen that
    call alone; when [connect] raises, it has seen the [close] and the
    [connect]: in both cases the message is not sent, whether the exception
    is then suppressed or not. *)
Theorem emit_sends_nothing_after_failure
    E self level message w formatted prio e :
  base_format E level message = Ok formatted →
  encodePriority (facility self) (PyStr (mapPriority level)) = Ok prio →
  (sock_outcome E (conn w) SockClose = Some e →
   sock_log (snd (emit E self level message w)) = (sock_log w ++ [SockClose])%list) ∧
  (sock_outcome E (conn w) SockClose = None →
   sock_outcome E Idle (connect_call self) = Some e →
   sock_log (snd (emit E self level message w)) =
   (sock_log w ++ [SockClose; connect_call self])%list).
Proof.
  intros Hformat Hprio. split.
  - intros Hclose.
    rewrite (emit_raised E self level message w formatted prio Hformat Hprio e _
               (transport_close_fails E self (payload self formatted prio)
                  (World (conn w) (sock_log w)
                     (console w ++ trace_lines message formatted)) e Hclose)).
    destruct (isinstance e RuntimeError); [| reflexivity].
    destruct (traceback_outcome E e); reflexivity.
  - intros Hclose Hconnect.
    rewrite (emit_raised E self level message w formatted prio Hformat Hprio e _
               (transport_connect_fails E self (payload self formatted prio)
                  (World (conn w) (sock_log w)
                     (console w ++ trace_lines message formatted)) e
                  Hclose Hconnect)).
    destruct (isinstance e RuntimeError); [| reflexivity].
    destruct (traceback_outcome E e); reflexivity.
Qed.

Lemma emit_sends_nothing_after_failure_witness :
  sock_log (snd (emit (failing_connect RuntimeError) example_handler
                   (PyStr "INFO") "hello" fresh_world)) =
  [SockClose; SockConnect ("logs.example", 514) UDP_MODE].
Proof.
  apply (emit_sends_nothing_after_failure (failing_connect RuntimeError)
           example_handler (PyStr "INFO") "hello" fresh_world "hello" 14
           (Exn RuntimeError "Failed to connect")); reflexivity.
Defined.

(** ** Consecutive calls *)

(** X12: two calls in a row, the first of which fails in [connect] or
    [send] with a [RuntimeError].  Where the traceback call of the handler
    is accepted, the first [emit] returns normally and, the socket layer
    working again, the second makes its own close, connect and send with
    its own payload; the console holds one failure report, for the first
    message.  Where the traceback call raises, that exception ends the
    sequence: the second [emit] is not run and the socket has seen the
    calls of the first alone. *)
Theorem emit_after_failed_emit
    E1 E2 self level1 message1 level2 message2 w
    formatted1 prio1 formatted2 prio2 e :
  base_format E1 level1 message1 = Ok formatted1 →
  encodePriority (facility self) (PyStr (mapPriority level1)) = Ok prio1 →
  sock_outcome E1 (conn w) SockClose = None →
  sock_outcome E1 Idle (connect_call self) = Some e ∨
  (sock_outcome E1 Idle (connect_call self) = None ∧
   sock_outcome E1 Connected (SockSend (payload self formatted1 prio1)) = Some e) →
  isinstance e RuntimeError = true →
  base_format E2 level2 message2 = Ok formatted2 →
  encodePriority (facility self) (PyStr (mapPriority level2)) = Ok prio2 →
  (∀ st, sock_outcome E2 st SockClose = None) →
  sock_outcome E2 Idle (connect_call self) = None →
  sock_outcome E2 Connected (SockSend (payload self formatted2 prio2)) = None →
  ∃ first_calls,
    (first_calls = [SockClose; connect_call self] ∨
     first_calls = [SockClose; connect_call self;
                    SockSend (payload self formatted1 prio1)]) ∧
    (traceback_outcome E1 e = None →
     (emit E1 self level1 message1;; emit E2 self level2 message2) w =
     (Ok tt,
      World Connected
        (sock_log w ++ first_calls ++
         [SockClose; connect_call self; SockSend (payload self formatted2 prio2)])
        (console w ++ trace_lines message1 formatted1 ++
         failure_report message1 e ++ trace_lines message2 formatted2))) ∧
    (∀ e', traceback_outcome E1 e = Some e' →
     fst ((emit E1 self level1 message1;; emit E2 self level2 message2) w)
     = Raise e' ∧
     sock_log (snd ((emit E1 self level1 message1;;
                     emit E2 self level2 message2) w))
     = (sock_log w ++ first_calls)%list).
Proof.
  intros Hformat1 Hprio1 Hclose1 Hfail Hrt Hformat2 Hprio2 Hclose2 Hconnect2 Hsend2.
  assert (Hfirst : ∃ first_calls st,
    (first_calls = [SockClose; connect_call self] ∨
     first_calls = [SockClose; connect_call self;
                    SockSend (payload self formatted1 prio1)]) ∧
    (_close E1 self;; _connect E1 self;;
     sock_do E1 (SockSend (payload self formatted1 prio1)))
      (World (conn w) (sock_log w)
         (console w ++ trace_lines message1 formatted1))
    = (Raise e,
       World st (sock_log w ++ first_calls)
         (console w ++ trace_lines message1 formatted1))).
  { destruct Hfail as [Hconnect1 | [Hconnect1 Hsend1]].
    - exists [SockClose; connect_call self], Idle. split; [left; reflexivity |].
      apply (transport_connect_fails E1 self (payload self formatted1 prio1)
               (World (conn w) (sock_log w)
                  (console w ++ trace_lines message1 formatted1)) e
               Hclose1 Hconnect1).
    - exists [SockClose; connect_call self;
              SockSend (payload self formatted1 prio1)], Connected.
      split; [right; reflexivity |].
      apply (transport_send_fails E1 self (payload self formatted1 prio1)
               (World (conn w) (sock_log w)
                  (console w ++ trace_lines message1 formatted1)) e
               Hclose1 Hconnect1 Hsend1). }
  destruct Hfirst as (first_calls & st & Hcalls & Hbody).
  exists first_calls. split; [exact Hcalls |].
  pose proof (emit_raised E1 self level1 message1 w formatted1 prio1
                Hformat1 Hprio1 e _ Hbody) as Hemit1.
  rewrite Hrt in Hemit1. cbn [conn sock_log console] in Hemit1.
  split.
  - intros Haccepted. rewrite Haccepted in Hemit1.
    cbv beta iota delta [mbind M_bind]. rewrite Hemit1.
    rewrite (emit_succeeds E2 self level2 message2 _ formatted2 prio2
               Hformat2 Hprio2 (Hclose2 _) Hconnect2 Hsend2).
    cbn [conn sock_log console].
    rewrite <- !app_assoc. reflexivity.
  - intros e' Hrefused. rewrite Hrefused in Hemit1.
    cbv beta iota delta [mbind M_bind]. rewrite Hemit1.
    split; reflexivity.
Qed.

Lemma emit_after_failed_emit_witness :
  (∃ first_calls,
     (emit (failing_connect_named RuntimeError) example_handler (PyStr "INFO") "one";;
      emit example_collaborators example_handler (PyStr "ERROR") "two")
       fresh_world =
     (Ok tt,
      World Connected
        ([] ++ first_calls ++
         [SockClose; connect_call example_handler;
          SockSend (payload example_handler "two" 11)])
        ([] ++ trace_lines "one" "one" ++
         failure_report "one" (Exn RuntimeError "Failed to connect") ++
         trace_lines "two" "two"))) ∧
  fst ((emit (failing_connect RuntimeError) example_handler (PyStr "INFO") "one";;
        emit example_collaborators example_handler (PyStr "ERROR") "two")
         fresh_world) =
  Raise (Exn TypeError
           "print_exception() got an unexpected keyword argument 'etype'").
Proof.
  split.
  - destruct (emit_after_failed_emit (failing_connect_named RuntimeError)
                example_collaborators example_handler (PyStr "INFO") "one"
                (PyStr "ERROR") "two" fresh_world "one" 14 "two" 11
                (Exn RuntimeError "Failed to connect"))
      as (first_calls & _ & Haccepted & _);
      [reflexivity | reflexivity | reflexivity | left; reflexivity
      | reflexivity | reflexivity | reflexivity | reflexivity | reflexivity
      | reflexivity | ].
    exists first_calls. apply Haccepted. reflexivity.
  - destruct (emit_after_failed_emit (failing_connect RuntimeError)
                example_collaborators example_handler (PyStr "INFO") "one"
                (PyStr "ERROR") "two" fresh_world "one" 14 "two" 11
                (Exn RuntimeError "Failed to connect"))
      as (first_calls & _ & _ & Hrefused);
      [reflexivity | reflexivity | reflexivity | left; reflexivity
      | reflexivity | reflexivity | reflexivity | reflexivity | reflexivity
      | reflexivity | ].
    apply (Hrefused
             (Exn TypeError
                "print_exception() got an unexpected keyword argument 'etype'")).
    reflexivity.
Defined.

(** ** Construction, continued *)

(** X13: the constructor lets a failure of the resolver through: when
    [getaddrinfo] raises, the constructor raises the same exception, and
    when it returns an empty list, indexing it raises an [IndexError]; no
    handler is returned in either case, whatever the protocol. *)
Theorem init_resolution_failure
    E host (port_arg : option Z) (facility_arg : option pyval)
    (protocol : option string) :
  (∀ e, getaddrinfo E host (default SYSLOG_UDP_PORT port_arg) = Raise e →
        __init__ E host port_arg facility_arg protocol = Raise e) ∧
  (getaddrinfo E host (default SYSLOG_UDP_PORT port_arg) = Ok [] →
   ∃ e, __init__ E host port_arg facility_arg protocol = Raise e ∧
        exc_class e = IndexError).
Proof.
  split.
  - intros e Hresolve. unfold __init__.
    destruct protocol as [s | ]; [destruct (String.eqb (str_lower s) "tcp") |];
      rewrite Hresolve; reflexivity.
  - intros Hresolve. unfold __init__.
    destruct protocol as [s | ]; [destruct (String.eqb (str_lower s) "tcp") |];
      rewrite Hresolve; eexists; split; reflexivity.
Qed.

Lemma init_resolution_failure_witness :
  __init__ (fixed_resolver (Raise (Exn RuntimeError "Failed to request hostname")))
    "logs.example" None None (Some "tcp")
  = Raise (Exn RuntimeError "Failed to request hostname") ∧
  ∃ e, __init__ (fixed_resolver (Ok [])) "logs.example" None None None = Raise e ∧
       exc_class e = IndexError.
Proof.
  split.
  - apply (init_resolution_failure
             (fixed_resolver (Raise (Exn RuntimeError "Failed to request hostname")))
             "logs.example" None None (Some "tcp")).
    reflexivity.
  - apply (init_resolution_failure (fixed_resolver (Ok []))
             "logs.example" None None None).
    reflexivity.
Defined.

(** X14: a handler as the constructor returns it, used as it is: [emit]
    connects to the address in component 4 of the first entry the resolver
    returned, in the connection mode that goes with the socket type, and
    sends the header, the formatted message and one NUL, with no ident. *)
Theorem init_then_emit
    E host (port_arg : option Z) (facility_arg : option pyval)
    (protocol : option string) info infos :
  getaddrinfo E host (default SYSLOG_UDP_PORT port_arg) = Ok (info :: infos) →
  ∃ h, __init__ E host port_arg facility_arg protocol = Ok h ∧
    ((_socktype h, _conntype h) = (SOCK_STREAM, TCP_MODE) ∨
     (_socktype h, _conntype h) = (SOCK_DGRAM, UDP_MODE)) ∧
    ∀ level message w formatted prio,
      base_format E level message = Ok formatted →
      encodePriority (default (PyInt LOG_USER) facility_arg)
        (PyStr (mapPriority level)) = Ok prio →
      sock_outcome E (conn w) SockClose = None →
      sock_outcome E Idle (SockConnect (addrinfo_4 info) (_conntype h)) = None →
      sock_log (snd (emit E h level message w)) =
      (sock_log w ++
       [SockClose; SockConnect (addrinfo_4 info) (_conntype h);
        SockSend (encode_utf8
                    ("<" +:+ percent_d prio +:+ ">" +:+ formatted +:+ NUL))])%list.
Proof.
  intros Hresolve.
  destruct (init_returns E host port_arg facility_arg protocol info infos Hresolve)
    as (socktype & conntype & Hinit & Hpair).
  eexists. split; [exact Hinit |]. split; [exact Hpair |].
  intros level message w formatted prio Hformat Hprio Hclose Hconnect.
  erewrite emit_sock_log;
    [ | exact Hformat | exact Hprio | exact Hclose | exact Hconnect].
  rewrite payload_wire_format. reflexivity.
Qed.

Lemma init_then_emit_witness :
  ∃ h, __init__ example_collaborators "logs.example" None None (Some "TCP") = Ok h ∧
       sock_log (snd (emit example_collaborators h (PyStr "DEBUG") "boot"
                        fresh_world)) =
       [SockClose; SockConnect ("logs.example", 514) (_conntype h);
        SockSend (encode_utf8 ("<15>boot" +:+ NUL))].
Proof.
  destruct (init_then_emit example_collaborators "logs.example" None None
              (Some "TCP") (2, SOCK_DGRAM, 0, "", ("logs.example", 514)) [])
    as (h & Hinit & _ & Hemit).
  - reflexivity.
  - exists h. split; [exact Hinit |].
    apply (Hemit (PyStr "DEBUG") "boot" fresh_world "boot" 15); reflexivity.
Defined.

(** ** The console on success *)

(** X15: an [emit] on which every socket call succeeds returns normally
    and prints exactly two lines, the message as received and the message
    as formatted; no failure report is written. *)
Theorem emit_success_console E self level message w formatted prio :
  base_format E level message = Ok formatted →
  encodePriority (facility self) (PyStr (mapPriority level)) = Ok prio →
  sock_outcome E (conn w) SockClose = None →
  sock_outcome E Idle (connect_call self) = None →
  sock_outcome E Connected (SockSend (payload self formatted prio)) = None →
  fst (emit E self level message w) = Ok tt ∧
  console (snd (emit E self level message w)) =
  (console w ++
   [Print ("Received message: " +:+ message);
    Print ("Formatted message: " +:+ formatted)])%list.
Proof.
  intros Hformat Hprio Hclose Hconnect Hsend.
  rewrite (emit_succeeds E self level message w formatted prio
             Hformat Hprio Hclose Hconnect Hsend).
  split; reflexivity.
Qed.

Lemma emit_success_console_witness :
  console (snd (emit example_collaborators example_handler (PyStr "INFO")
                  "hello" fresh_world)) =
  [Print "Received message: hello"; Print "Formatted message: hello"].
Proof.
  apply (emit_success_console example_collaborators example_handler
           (PyStr "INFO") "hello" fresh_world "hello" 14); reflexivity.
Defined.
